(** * GrandscaleDB: the conditional-touch rule on [updated_at]

    Shallow embedding of [src/models/update_rules.py] (the configuration map
    [REAL_UPDATE_COLS], the mapper hook [skip_updated_at] and its registration
    loop) over the schema declared in [src/models/project.py],
    [organization.py], [annotation.py] and [event.py].  ([src/models.py] is an
    earlier single-file schema; [update_rules.py] does not import it.)

    The ORM is the hook's collaborator, not part of the repository.  It is
    modelled by what SQLAlchemy's unit of work does with a mapped object:
    per attribute the object keeps the value of its row and, once assigned,
    the value now on the object; [history] compares the two; [loaded_value]
    reads the value now on the object; a flush fires [before_update] for an
    object that was assigned to, emits an UPDATE only when some column has a
    net change, puts in its SET clause only the columns with a net change,
    and lets [onupdate=func.now()] fill every other column that declares
    it. *)

From Stdlib Require Import ZArith.
From stdpp Require Import base option strings list gmap.

Open Scope string_scope.

(** ** Python values and exceptions *)

Module Py.

(** Values a mapped column can hold.  [NO_VALUE] is the ORM's marker for
    "nothing loaded" (a transient instance has no row yet). *)
Inductive value : Type :=
  | NO_VALUE
  | VNone
  | VBool (b : bool)
  | VInt (n : Z)
  | VStr (s : string)
  | VDateTime (t : Z).

#[global] Instance value_eq_dec : EqDecision value.
Proof. solve_decision. Defined.

Inductive exn : Type :=
  | KeyError (key : string).

(** A call either returns or raises. *)
Inductive result (A : Type) : Type :=
  | Ok (a : A)
  | Raise (e : exn).

#[global] Arguments Ok {A} a.
#[global] Arguments Raise {A} e.

#[global] Instance result_ret : MRet result := fun A a => Ok a.
#[global] Instance result_bind : MBind result := fun A B f r =>
  match r with
  | Ok a => f a
  | Raise e => Raise e
  end.

Definition returns {A} (r : result A) : Prop := ∃ a, r = Ok a.

End Py.
Import Py.

(** ** The ORM's view of one instance *)

Module Orm.

(** [History(added, unchanged, deleted)] of one attribute. *)
Record History : Type := mkHistory {
  added : list value;
  unchanged : list value;
  deleted : list value
}.

(** [History.has_changes()]: [bool(self.added or self.deleted)]. *)
Definition has_changes (h : History) : bool :=
  negb (bool_decide (added h = [])) || negb (bool_decide (deleted h = [])).

(** The state of one attribute: the value its row holds (what
    [committed_state] remembers once the attribute is assigned), and the
    value assigned since the load, if any (what the object's [__dict__] then
    holds). *)
Record AttributeState : Type := mkAttr {
  committed : value;
  pending : option value
}.

#[global] Instance AttributeState_eq_dec : EqDecision AttributeState.
Proof. solve_decision. Defined.

(** [state.attrs[c].history] for a scalar column: an assigned value that
    differs from the row's replaces it; otherwise nothing changed. *)
Definition history (a : AttributeState) : History :=
  match pending a with
  | None => mkHistory [] [committed a] []
  | Some v =>
      if decide (v = committed a) then mkHistory [] [v] []
      else mkHistory [v] [] [committed a]
  end.

(** [state.attrs[c].loaded_value]: [state.dict.get(key, NO_VALUE)], the
    value now on the object, which is the assigned one once the attribute
    was assigned. *)
Definition loaded_value (a : AttributeState) : value :=
  default (committed a) (pending a).

End Orm.
Import Orm.

(** ** The schema: model classes, table names, columns *)

Module Schema.

(** The declarative classes of the [models] package. *)
Inductive Model : Type :=
  | Project | File | FileVersion
  | Organization | User | Role | Permission
  | AnnotationJob | Assignment | Review
  | ExportedFile | ExportLog | EventLog.

#[global] Instance Model_eq_dec : EqDecision Model.
Proof. solve_decision. Defined.

(** [__tablename__] *)
Definition tablename (m : Model) : string :=
  match m with
  | Project => "project"
  | File => "file"
  | FileVersion => "file_version"
  | Organization => "organization"
  | User => "user"
  | Role => "role"
  | Permission => "permission"
  | AnnotationJob => "annotation_job"
  | Assignment => "assignment"
  | Review => "review"
  | ExportedFile => "exported_file"
  | ExportLog => "export_log"
  | EventLog => "event_log"
  end.

(** Modelled from the spec: [TimestampMixin] lives in [models/mixins.py],
    which is not among the sources.  Section 3 of the specification says each
    tracked record "carries an automatically managed [updated_at] timestamp
    set on creation and intended to advance on every update"; the mixin is
    taken to contribute exactly that column, declared like the explicit one
    of [Assignment] ([onupdate=func.now()]). *)
Definition TimestampMixin : list string := ["updated_at"].

(** Which classes list [TimestampMixin] among their bases. *)
Definition has_TimestampMixin (m : Model) : bool :=
  match m with
  | ExportedFile => false
  | _ => true
  end.

(** The [Column(...)] attributes each class body declares. *)
Definition declared_columns (m : Model) : list string :=
  match m with
  | Project =>
      ["project_id"; "org_id"; "name"; "description"; "requirements_text";
       "status"; "is_active"; "date_created"; "date_updated"; "completed_at";
       "deleted_at"; "client_pm_id"; "our_pm_id"]
  | File =>
      ["file_id"; "name"; "description"; "uploaded_by"; "status"; "file_type";
       "date_created"; "date_updated"; "is_active"; "deleted_at";
       "size_bytes"; "mime_type"; "project_id"; "active_version_id"]
  | FileVersion =>
      ["version_id"; "file_id"; "version_number"; "storage_path"; "checksum";
       "size_bytes"; "mime_type"; "uploaded_by"; "uploaded_at"; "is_active";
       "source_file_version_id"; "generation_method"; "llm_model";
       "llm_params"]
  | Organization =>
      ["org_id"; "name"; "description"; "is_active"; "deleted_at"]
  | User =>
      ["user_id"; "email"; "org_id"; "availability"; "language_expertise";
       "skill_score"; "skill_level"; "qa_approval_rate";
       "completed_task_count"; "is_active"]
  | Role => ["role_id"; "name"; "description"]
  | Permission => ["permission_id"; "name"; "description"]
  | AnnotationJob =>
      ["job_id"; "file_id"; "project_id"; "language"; "priority"; "status";
       "review_status"; "is_active"; "deleted_at"; "due_date"; "completed_at"]
  | Assignment =>
      ["assignment_id"; "job_id"; "user_id"; "role"; "status"; "is_active";
       "completed_at"; "assigned_at"; "updated_at"]
  | Review =>
      ["review_id"; "job_id"; "reviewer_id"; "status"; "feedback";
       "is_active"; "deleted_at"]
  | ExportedFile => ["export_id"; "file_version_id"; "included_at"]
  | ExportLog =>
      ["export_id"; "project_id"; "requested_by"; "storage_path"; "checksum";
       "status"; "date_requested"; "date_completed"]
  | EventLog =>
      ["event_id"; "entity_type"; "entity_id"; "event_type"; "user_id";
       "event_metadata"; "event_time"; "file_id"; "file_version_id";
       "project_id"; "job_id"; "export_id"; "review_id"]
  end.

(** Every column attribute of a class: its own and the mixin's.  The
    [relationship(...)] attributes are left out: they hold collections, not
    column values, and no configured name is one of them. *)
Definition columns (m : Model) : list string :=
  declared_columns m ++ (if has_TimestampMixin m then TimestampMixin else []).

(** Columns declared with [onupdate=func.now()]. *)
Definition declared_onupdate (m : Model) : list string :=
  match m with
  | Project => ["date_updated"]
  | File => ["date_updated"]
  | Assignment => ["updated_at"]
  | _ => []
  end.

Definition onupdate_columns (m : Model) : list string :=
  declared_onupdate m ++ (if has_TimestampMixin m then TimestampMixin else []).

End Schema.
Import Schema.

(** ** Instances *)

(** A mapped object: its class and the attribute states [inspect] exposes. *)
Record Instance : Type := mkInstance {
  cls : Model;
  attrs : gmap string AttributeState
}.

(** [inspect(target)] *)
Definition inspect (target : Instance) : gmap string AttributeState :=
  attrs target.

(** [state.attrs[c]] raises [KeyError] for a name that is not mapped. *)
Definition getitem (state : gmap string AttributeState) (c : string)
  : result AttributeState :=
  match state !! c with
  | Some a => Ok a
  | None => Raise (KeyError c)
  end.

(** [target.name = v] on a mapped attribute puts [v] on the object; the
    value of the row is remembered.  On a name that is not mapped the
    assignment makes a plain Python attribute the ORM never sees. *)
Definition assign (v : value) (a : AttributeState) : AttributeState :=
  mkAttr (committed a) (Some v).

Definition setattr (target : Instance) (name : string) (v : value) : Instance :=
  mkInstance (cls target) (alter (assign v) name (attrs target)).

(** Every ORM instance carries a state for each column of its class. *)
Definition well_formed (t : Instance) : Prop :=
  Forall (λ c, is_Some (attrs t !! c)) (columns (cls t)).

#[global] Instance well_formed_dec t : Decision (well_formed t).
Proof. unfold well_formed. apply _. Defined.

(** An instance as a query returns it: every column loaded, none assigned. *)
Definition load (m : Model) (row : string → value) : Instance :=
  mkInstance m (list_to_map ((λ c, (c, mkAttr (row c) None)) <$> columns m)).

(** A new object, not flushed yet: nothing loaded, only assigned values. *)
Definition transient (m : Model) (vals : string → option value) : Instance :=
  mkInstance m
    (list_to_map ((λ c, (c, mkAttr NO_VALUE (vals c))) <$> columns m)).

(** The persisted value of a column, and whether it changed since load. *)
Definition persisted (t : Instance) (c : string) : option value :=
  committed <$> attrs t !! c.

Definition changed (t : Instance) (c : string) : bool :=
  match attrs t !! c with
  | Some a => has_changes (history a)
  | None => false
  end.

(** No attribute carries an assignment: the object is as its row. *)
Definition clean (t : Instance) : Prop :=
  map_Forall (λ _ a, pending a = None) (attrs t).

(** Some column's value on the object differs from the row's. *)
Definition net_change (t : Instance) : bool :=
  bool_decide (map_Exists (λ _ a, has_changes (history a) = true) (attrs t)).

(** ** [update_rules.py] *)

(** [REAL_UPDATE_COLS]: a dict from table name to a set of column names.
    Each set is written as the list of its elements in source order;
    [any_has_changes_Permutation] below shows the order is immaterial
    whenever the lookups succeed. *)
Definition REAL_UPDATE_COLS : gmap string (list string) :=
  list_to_map
    [("project", ["status"; "name"; "description"; "client_pm_id";
                  "our_pm_id"; "is_active"]);
     ("file", ["status"; "name"; "description"; "active_version_id";
               "is_active"]);
     ("file_version", ["is_active"; "generation_method"; "llm_model";
                       "llm_params"]);
     ("user", ["email"; "org_id"; "availability"; "language_expertise";
               "skill_score"; "skill_level"; "qa_approval_rate"; "is_active"]);
     ("annotation_job", ["status"; "review_status"; "priority"; "language";
                         "due_date"; "is_active"]);
     ("assignment", ["status"; "role"; "user_id"]);
     ("review", ["status"; "feedback"; "is_active"]);
     ("export_log", ["status"; "storage_path"; "checksum"]);
     ("organization", ["name"; "description"; "is_active"])].

(** [any(state.attrs[c].history.has_changes() for c in cols)]: the generator
    is consumed in order and [any] stops at the first true. *)
Fixpoint any_has_changes (state : gmap string AttributeState)
    (cols : list string) : result bool :=
  match cols with
  | [] => Ok false
  | c :: cols' =>
      a ← getitem state c;
      if has_changes (history a) then Ok true else any_has_changes state cols'
  end.

(** [skip_updated_at(mapper, connection, target)].  The function works on two
    objects of the heap, the module's dict and the target; both are passed in
    and handed back, so that what it leaves alone can be stated. *)
Definition skip_updated_at (config : gmap string (list string))
    (target : Instance) : result (gmap string (list string) * Instance) :=
  let state := inspect target in
  let cols := default [] (config !! tablename (cls target)) in
  match cols with
  | [] => Ok (config, target)
  | _ :: _ =>
      any_changed ← any_has_changes state cols;
      if any_changed : bool then Ok (config, target)
      else
        a ← getitem state "updated_at";
        Ok (config, setattr target "updated_at" (loaded_value a))
  end.

(** The registration loop: [event.listen(model, "before_update",
    skip_updated_at)] for each model of the list, in order. *)
Definition hook : Type :=
  gmap string (list string) → Instance →
  result (gmap string (list string) * Instance).

Definition event_listen (registry : list (Model * string * hook))
    (model : Model) (identifier : string) (fn : hook)
  : list (Model * string * hook) :=
  registry ++ [(model, identifier, fn)].

Definition registered : list Model :=
  [Project; File; FileVersion; User; AnnotationJob;
   Assignment; Review; ExportLog; Organization].

Definition listeners : list (Model * string * hook) :=
  foldl (λ registry model,
           event_listen registry model "before_update" skip_updated_at)
        [] registered.

(** ** The persistence layer around the hook *)

(** The listeners of one mapper event on one class, in registration order. *)
Definition listeners_for (registry : list (Model * string * hook))
    (model : Model) (identifier : string) : list hook :=
  omap (λ entry : Model * string * hook,
          if decide (entry.1.1 = model ∧ entry.1.2 = identifier)
          then Some entry.2 else None)
       registry.

(** The classes that have a listener for an event. *)
Definition listening (registry : list (Model * string * hook))
    (identifier : string) : list Model :=
  omap (λ entry : Model * string * hook,
          if decide (entry.1.2 = identifier) then Some entry.1.1 else None)
       registry.

Fixpoint run_listeners (fns : list hook) (config : gmap string (list string))
    (target : Instance) : result (gmap string (list string) * Instance) :=
  match fns with
  | [] => Ok (config, target)
  | fn :: fns' =>
      r ← fn config target;
      run_listeners fns' r.1 r.2
  end.

(** The unit of work fires [before_insert] for a new object and
    [before_update] for a persistent one. *)
Inductive Operation : Type := INSERT | UPDATE.

Definition mapper_event (op : Operation) : string :=
  match op with
  | INSERT => "before_insert"
  | UPDATE => "before_update"
  end.

Definition dispatch (op : Operation) (config : gmap string (list string))
    (target : Instance) : result (gmap string (list string) * Instance) :=
  run_listeners (listeners_for listeners (cls target) (mapper_event op))
                config target.

(** The value an UPDATE statement leaves in a column: the value on the
    object when the column has a net change (only those are in the SET
    clause); otherwise the clock for an [onupdate=func.now()] column, and
    the old value for any other. *)
Definition written (m : Model) (now : Z) (c : string) (a : AttributeState)
  : value :=
  if has_changes (history a) then loaded_value a
  else if bool_decide (c ∈ onupdate_columns m) then VDateTime now
  else committed a.

(** The row after the flush wrote the object, read back as the instance's
    new baseline.  Without a net change no UPDATE is emitted and the row is
    as it was. *)
Definition emit_update (now : Z) (target : Instance) : Instance :=
  mkInstance (cls target)
    (if net_change target
     then map_imap (λ c a, Some (mkAttr (written (cls target) now c a) None))
                   (attrs target)
     else (λ a, mkAttr (committed a) None) <$> attrs target).

(** One flush of one persistent instance at clock reading [now]: the
    [before_update] listeners run on an object that was assigned to, then
    the row is written. *)
Definition flush_update (now : Z) (config : gmap string (list string))
    (target : Instance) : result (gmap string (list string) * Instance) :=
  r ← (if bool_decide (clean target) then Ok (config, target)
       else dispatch UPDATE config target);
  Ok (r.1, emit_update now r.2).

(** ** Sample data *)

(** A row whose [updated_at] is [T0]; every other column holds its own name
    as text. *)
Definition sample_row (T0 : Z) (c : string) : value :=
  if decide (c = "updated_at") then VDateTime T0 else VStr c.

Definition project_cols : list string :=
  ["status"; "name"; "description"; "client_pm_id"; "our_pm_id"; "is_active"].

(** A project loaded with [updated_at = 100] and then edited by a caller. *)
Definition project_at_100 : Instance := load Project (sample_row 100).

Definition project_set_status : Instance :=
  setattr project_at_100 "status" (VStr "completed").

Definition project_set_description : Instance :=
  setattr project_at_100 "description" (VStr "revised").

Definition project_set_requirements_text : Instance :=
  setattr project_at_100 "requirements_text" (VStr "see attachment").

Definition project_set_status_and_requirements_text : Instance :=
  setattr project_set_status "requirements_text" (VStr "see attachment").

Definition organization_set_name : Instance :=
  setattr (load Organization (sample_row 100)) "name" (VStr "Grandscale").

Definition user_set_completed_task_count : Instance :=
  setattr (load User (sample_row 100)) "completed_task_count" (VInt 7).

Definition event_log_set_metadata : Instance :=
  setattr (load EventLog (sample_row 100)) "event_metadata" (VStr "{}").

Definition role_set_description : Instance :=
  setattr (load Role (sample_row 100)) "description" (VStr "may review").

(** A file that was never flushed, and one read back from its row. *)
Definition file_new : Instance := transient File (λ c, Some (VStr c)).

Definition file_at_100 : Instance := load File (sample_row 100).

(** Objects no mapper would produce: a project whose only attribute state is
    a changed [status], and one with no attribute state at all. *)
Definition project_status_only : Instance :=
  mkInstance Project {[ "status" := mkAttr (VStr "draft") (Some (VStr "completed")) ]}.

Definition project_bare : Instance := mkInstance Project ∅.

(** ** Callers of the persistence layer *)

(** What the hook leaves of its result for the caller: the target. *)
Definition outcome (r : result (gmap string (list string) * Instance))
  : result Instance :=
  r ≫= λ r, Ok r.2.

(** A caller that writes [updated_at] by hand. *)
Definition project_set_updated_at : Instance :=
  setattr project_at_100 "updated_at" (VDateTime 500).

(** ** The rest of the declarations: keys, constraints, relationships *)

Module Declared.

Definition all_models : list Model :=
  [Project; File; FileVersion; Organization; User; Role; Permission;
   AnnotationJob; Assignment; Review; ExportedFile; ExportLog; EventLog].

(** Columns declared with [primary_key=True]. *)
Definition primary_key (m : Model) : list string :=
  match m with
  | Project => ["project_id"]
  | File => ["file_id"]
  | FileVersion => ["version_id"]
  | Organization => ["org_id"]
  | User => ["user_id"]
  | Role => ["role_id"]
  | Permission => ["permission_id"]
  | AnnotationJob => ["job_id"]
  | Assignment => ["assignment_id"]
  | Review => ["review_id"]
  | ExportedFile => ["export_id"; "file_version_id"]
  | ExportLog => ["export_id"]
  | EventLog => ["event_id"]
  end.

Inductive OnDelete : Type := CASCADE | SET_NULL.

(** [Column(..., ForeignKey("table.column", ondelete=...), nullable=...)].
    A column is nullable unless it says [nullable=False] or is part of the
    primary key. *)
Record ForeignKey : Type := mkFK {
  fk_column : string;
  fk_table : string;
  fk_target : string;
  fk_ondelete : option OnDelete;
  fk_nullable : bool
}.

Definition foreign_keys (m : Model) : list ForeignKey :=
  match m with
  | Project =>
      [mkFK "org_id" "organization" "org_id" None false;
       mkFK "client_pm_id" "user" "user_id" None false;
       mkFK "our_pm_id" "user" "user_id" None true]
  | File =>
      [mkFK "uploaded_by" "user" "user_id" None false;
       mkFK "project_id" "project" "project_id" None false;
       mkFK "active_version_id" "file_version" "version_id" None true]
  | FileVersion =>
      [mkFK "file_id" "file" "file_id" (Some CASCADE) false;
       mkFK "uploaded_by" "user" "user_id" None true;
       mkFK "source_file_version_id" "file_version" "version_id" None true]
  | Organization => []
  | User => [mkFK "org_id" "organization" "org_id" (Some SET_NULL) true]
  | Role => []
  | Permission => []
  | AnnotationJob =>
      [mkFK "file_id" "file" "file_id" (Some CASCADE) false;
       mkFK "project_id" "project" "project_id" (Some CASCADE) false]
  | Assignment =>
      [mkFK "job_id" "annotation_job" "job_id" (Some CASCADE) false;
       mkFK "user_id" "user" "user_id" (Some CASCADE) false]
  | Review =>
      [mkFK "job_id" "annotation_job" "job_id" (Some CASCADE) false;
       mkFK "reviewer_id" "user" "user_id" (Some SET_NULL) true]
  | ExportedFile =>
      [mkFK "export_id" "export_log" "export_id" (Some CASCADE) false;
       mkFK "file_version_id" "file_version" "version_id" (Some CASCADE) false]
  | ExportLog =>
      [mkFK "project_id" "project" "project_id" None false;
       mkFK "requested_by" "user" "user_id" None false]
  | EventLog =>
      [mkFK "user_id" "user" "user_id" (Some SET_NULL) true;
       mkFK "file_id" "file" "file_id" (Some SET_NULL) true;
       mkFK "file_version_id" "file_version" "version_id" (Some SET_NULL) true;
       mkFK "project_id" "project" "project_id" (Some SET_NULL) true;
       mkFK "job_id" "annotation_job" "job_id" (Some SET_NULL) true;
       mkFK "export_id" "export_log" "export_id" (Some SET_NULL) true;
       mkFK "review_id" "review" "review_id" (Some CASCADE) true]
  end.

(** The association [Table(...)] objects and the foreign keys of their
    columns. *)
Inductive Association : Type :=
  | user_roles | role_permissions | job_previous_annotators.

Definition association_keys (a : Association) : list ForeignKey :=
  match a with
  | user_roles =>
      [mkFK "user_id" "user" "user_id" (Some CASCADE) false;
       mkFK "role_id" "role" "role_id" (Some CASCADE) false]
  | role_permissions =>
      [mkFK "role_id" "role" "role_id" (Some CASCADE) false;
       mkFK "permission_id" "permission" "permission_id" (Some CASCADE) false]
  | job_previous_annotators =>
      [mkFK "job_id" "annotation_job" "job_id" (Some CASCADE) false;
       mkFK "user_id" "user" "user_id" (Some CASCADE) false]
  end.

(** The column names that the [UniqueConstraint(...)] and [Index(...)]
    entries of [__table_args__] mention, in order of appearance. *)
Definition table_args_columns (m : Model) : list string :=
  match m with
  | Project =>
      ["org_id"; "name"; "status"; "is_active"; "client_pm_id"; "org_id"]
  | File => ["project_id"; "name"; "project_id"; "status"; "file_type"]
  | FileVersion => ["file_id"]
  | Organization => ["name"]
  | Assignment => ["job_id"; "user_id"; "role"]
  | Review => ["job_id"; "status"]
  | EventLog => ["entity_type"; "entity_id"]
  | _ => []
  end.

(** [name = relationship("Target", back_populates=...)]. *)
Record Relationship : Type := mkRel {
  rel_name : string;
  rel_target : Model;
  back_populates : option string
}.

Definition relationships (m : Model) : list Relationship :=
  match m with
  | Project =>
      [mkRel "files" File (Some "project");
       mkRel "requirement_files" File None;
       mkRel "jobs" AnnotationJob (Some "project");
       mkRel "events" EventLog (Some "project");
       mkRel "organization" Organization (Some "projects");
       mkRel "client_pm" User (Some "client_projects");
       mkRel "our_pm" User (Some "managed_projects");
       mkRel "exports" ExportLog (Some "project")]
  | File =>
      [mkRel "uploader" User (Some "uploaded_files");
       mkRel "project" Project (Some "files");
       mkRel "versions" FileVersion (Some "file");
       mkRel "annotation_jobs" AnnotationJob (Some "file");
       mkRel "events" EventLog (Some "file");
       mkRel "active_version" FileVersion None]
  | FileVersion =>
      [mkRel "file" File (Some "versions");
       mkRel "source_version" FileVersion None;
       mkRel "events" EventLog (Some "file_version");
       mkRel "exports" ExportLog (Some "file_versions");
       mkRel "exported_files" ExportedFile (Some "file_version")]
  | Organization =>
      [mkRel "users" User (Some "organization");
       mkRel "projects" Project (Some "organization")]
  | User =>
      [mkRel "uploaded_files" File (Some "uploader");
       mkRel "events" EventLog (Some "user");
       mkRel "assignments" Assignment (Some "user");
       mkRel "client_projects" Project (Some "client_pm");
       mkRel "managed_projects" Project (Some "our_pm");
       mkRel "previous_jobs" AnnotationJob (Some "previous_annotators");
       mkRel "reviews" Review (Some "reviewer")]
  | Role =>
      [mkRel "users" User (Some "roles");
       mkRel "permissions" Permission (Some "roles")]
  | Permission => [mkRel "roles" Role (Some "permissions")]
  | AnnotationJob =>
      [mkRel "file" File (Some "annotation_jobs");
       mkRel "project" Project (Some "annotation_jobs");
       mkRel "reviews" Review (Some "job");
       mkRel "assignments" Assignment (Some "job");
       mkRel "previous_annotators" User (Some "previous_jobs")]
  | Assignment =>
      [mkRel "job" AnnotationJob (Some "assignments");
       mkRel "user" User (Some "assignments");
       mkRel "reviews" Review None]
  | Review =>
      [mkRel "job" AnnotationJob (Some "reviews");
       mkRel "reviewer" User (Some "reviews");
       mkRel "events" EventLog (Some "review")]
  | ExportedFile =>
      [mkRel "export" ExportLog (Some "exported_files");
       mkRel "file_version" FileVersion (Some "exported_files")]
  | ExportLog =>
      [mkRel "project" Project (Some "exports");
       mkRel "requested_user" User None;
       mkRel "file_versions" FileVersion (Some "exports");
       mkRel "exported_files" ExportedFile (Some "export")]
  | EventLog =>
      [mkRel "user" User (Some "events");
       mkRel "project" Project (Some "events");
       mkRel "file" File (Some "events");
       mkRel "file_version" FileVersion (Some "events");
       mkRel "job" AnnotationJob (Some "events");
       mkRel "export" ExportLog (Some "events");
       mkRel "review" Review (Some "events")]
  end.

(** Does the target class declare the relationship that [back_populates]
    names, pointing back at the declaring class? *)
Definition reciprocated (m : Model) (r : Relationship) : bool :=
  match back_populates r with
  | None => true
  | Some name =>
      existsb (λ r', bool_decide (rel_name r' = name ∧ rel_target r' = m))
              (relationships (rel_target r))
  end.

(** The relationships, class by class, that are not reciprocated. *)
Definition one_sided : list (Model * string) :=
  m ← all_models;
  (λ r, (m, rel_name r)) <$> filter (λ r, reciprocated m r = false)
                                    (relationships m).

(** The class, if any, whose [__tablename__] is the given name. *)
Definition model_of_table (name : string) : option Model :=
  list_find (λ m, tablename m = name) all_models ≫= λ im, Some im.2.

(** A foreign key resolves when its table is a class's table and its target
    column is that class's whole primary key; [SET NULL] needs a nullable
    column. *)
Definition resolves (fk : ForeignKey) : bool :=
  match model_of_table (fk_table fk) with
  | Some m' => bool_decide (primary_key m' = [fk_target fk])
  | None => false
  end.

Definition set_null_allowed (fk : ForeignKey) : bool :=
  match fk_ondelete fk with
  | Some SET_NULL => fk_nullable fk
  | _ => true
  end.

End Declared.
Import Declared.

(** ** Facts about the embedding *)

Section Lookups.

Implicit Types (state : gmap string AttributeState) (cols : list string).
Implicit Types (t : Instance) (c : string) (v : value).

Lemma getitem_Ok state c a : getitem state c = Ok a ↔ state !! c = Some a.
Proof.
  unfold getitem. destruct (state !! c) as [a'|]; split; intros H;
    try discriminate; by inversion H.
Qed.

(** With every looked-up column present, [any] computes the disjunction of
    the per-column change flags. *)
Lemma any_has_changes_present state cols :
  (∀ c, c ∈ cols → is_Some (state !! c)) →
  any_has_changes state cols
  = Ok (existsb (λ c, from_option (λ a, has_changes (history a)) false
                                    (state !! c)) cols).
Proof.
  induction cols as [|c cols IH]; intros Hall; [reflexivity|].
  simpl. destruct (Hall c) as [a Ha]; [left|].
  unfold getitem. rewrite Ha. simpl.
  destruct (has_changes (history a)); [reflexivity|].
  apply IH. intros c' Hc'. apply Hall. by right.
Qed.

Lemma existsb_Permutation {A} (f : A → bool) (l1 l2 : list A) :
  l1 ≡ₚ l2 → existsb f l1 = existsb f l2.
Proof.
  induction 1 as [|x l l' _ IH|x y l|l l' l'' _ IH1 _ IH2]; simpl.
  - reflexivity.
  - by rewrite IH.
  - destruct (f x), (f y); reflexivity.
  - by rewrite IH1.
Qed.

(** The order in which the set's elements are visited does not matter when
    all of them are mapped attributes. *)
Lemma any_has_changes_Permutation state cols cols' :
  cols ≡ₚ cols' →
  (∀ c, c ∈ cols → is_Some (state !! c)) →
  any_has_changes state cols = any_has_changes state cols'.
Proof.
  intros Hp Hall.
  rewrite (any_has_changes_present state cols Hall).
  rewrite (any_has_changes_present state cols').
  - f_equal. by apply existsb_Permutation.
  - intros c Hc. apply Hall. by rewrite Hp.
Qed.

Lemma any_has_changes_changed t cols :
  (∀ c, c ∈ cols → is_Some (attrs t !! c)) →
  any_has_changes (inspect t) cols = Ok (existsb (changed t) cols).
Proof.
  intros Hall. unfold inspect. by rewrite any_has_changes_present.
Qed.

End Lookups.

(** ** The hook under an arbitrary configuration *)

Section Hook.

Variable config : gmap string (list string).
Implicit Types (t : Instance) (c : string) (v : value) (cols : list string).

Lemma skip_updated_at_not_configured t :
  config !! tablename (cls t) = None →
  skip_updated_at config t = Ok (config, t).
Proof. intros H. unfold skip_updated_at. by rewrite H. Qed.

Lemma skip_updated_at_empty_set t :
  config !! tablename (cls t) = Some [] →
  skip_updated_at config t = Ok (config, t).
Proof. intros H. unfold skip_updated_at. by rewrite H. Qed.

Lemma skip_updated_at_changed t cols :
  config !! tablename (cls t) = Some cols →
  (∀ c, c ∈ cols → is_Some (attrs t !! c)) →
  existsb (changed t) cols = true →
  skip_updated_at config t = Ok (config, t).
Proof.
  intros Hcfg Hall Hex. unfold skip_updated_at. rewrite Hcfg. simpl.
  destruct cols as [|c cols]; [reflexivity|].
  rewrite (any_has_changes_changed t (c :: cols) Hall), Hex. reflexivity.
Qed.

Lemma skip_updated_at_unchanged t cols a :
  config !! tablename (cls t) = Some cols →
  cols ≠ [] →
  (∀ c, c ∈ cols → is_Some (attrs t !! c)) →
  existsb (changed t) cols = false →
  attrs t !! "updated_at" = Some a →
  skip_updated_at config t
  = Ok (config, setattr t "updated_at" (loaded_value a)).
Proof.
  intros Hcfg Hne Hall Hex Hup. unfold skip_updated_at. rewrite Hcfg. simpl.
  destruct cols as [|c cols]; [done|].
  rewrite (any_has_changes_changed t (c :: cols) Hall), Hex. simpl.
  unfold getitem, inspect. rewrite Hup. reflexivity.
Qed.

(** Whatever the hook returns is the input, or the input with [updated_at]
    assigned the value it has on the object. *)
Lemma skip_updated_at_inv t r :
  skip_updated_at config t = Ok r →
  r = (config, t)
  ∨ ∃ a, attrs t !! "updated_at" = Some a
         ∧ r = (config, setattr t "updated_at" (loaded_value a)).
Proof.
  unfold skip_updated_at.
  destruct (default [] (config !! tablename (cls t))) as [|c cols].
  { intros [= <-]. by left. }
  destruct (any_has_changes (inspect t) (c :: cols)) as [[|]|e]; simpl.
  - intros [= <-]. by left.
  - destruct (getitem (inspect t) "updated_at") as [a|e] eqn:Ha; simpl.
    + intros [= <-]. right. exists a. split; [|done]. by apply getitem_Ok.
    + discriminate.
  - discriminate.
Qed.

Lemma has_changes_assign a v :
  has_changes (history (assign v a)) = bool_decide (v ≠ committed a).
Proof.
  unfold history, assign. cbn [pending committed].
  destruct (decide (v = committed a)) as [Heq|Hne].
  - by rewrite bool_decide_eq_false_2 by (intros H; by apply H).
  - by rewrite bool_decide_eq_true_2.
Qed.

Lemma loaded_value_assign a v : loaded_value (assign v a) = v.
Proof. reflexivity. Qed.

(** Assigning an attribute the value it has on the object changes nothing
    in how it compares with the row. *)
Lemma history_reassign a : history (assign (loaded_value a) a) = history a.
Proof.
  unfold history, assign, loaded_value. destruct a as [row [v|]]; cbn.
  - reflexivity.
  - by rewrite decide_True.
Qed.

Lemma any_has_changes_reassign state a cols :
  state !! "updated_at" = Some a →
  any_has_changes (alter (assign (loaded_value a)) "updated_at" state) cols
  = any_has_changes state cols.
Proof.
  intros Hup. induction cols as [|c cols IH]; [done|]. simpl.
  unfold getitem. rewrite lookup_alter.
  destruct (decide ("updated_at" = c)) as [<-|Hne].
  - rewrite Hup. simpl. rewrite history_reassign.
    destruct (has_changes (history a)); [done|]. exact IH.
  - destruct (state !! c) as [a'|]; simpl; [|done].
    destruct (has_changes (history a')); [done|]. exact IH.
Qed.

Lemma cls_setattr t c v : cls (setattr t c v) = cls t.
Proof. reflexivity. Qed.

Lemma attrs_setattr t c v :
  attrs (setattr t c v) = alter (assign v) c (attrs t).
Proof. reflexivity. Qed.

Lemma setattr_setattr t c v : setattr (setattr t c v) c v = setattr t c v.
Proof.
  unfold setattr. simpl. f_equal. apply map_eq. intros c'.
  destruct (decide (c = c')) as [<-|Hne].
  - rewrite !lookup_alter_eq. by destruct (attrs t !! c).
  - by rewrite !lookup_alter_ne.
Qed.

(** Running the hook on its own output changes nothing more. *)
Lemma skip_updated_at_idempotent t :
  (skip_updated_at config t ≫= λ r, skip_updated_at r.1 r.2)
  = skip_updated_at config t.
Proof.
  destruct (skip_updated_at config t) as [r|e] eqn:Hrun; [|reflexivity].
  simpl. revert Hrun. unfold skip_updated_at at 1.
  destruct (default [] (config !! tablename (cls t))) as [|c cols] eqn:Hcols.
  { intros [= <-]. simpl. unfold skip_updated_at. by rewrite Hcols. }
  destruct (any_has_changes (inspect t) (c :: cols)) as [[|]|e] eqn:Hany.
  - intros [= <-]. cbn [fst snd]. unfold skip_updated_at.
    rewrite Hcols, Hany. reflexivity.
  - cbn [mbind result_bind].
    destruct (getitem (inspect t) "updated_at") as [a|e] eqn:Ha;
      [|discriminate].
    intros [= <-]. cbn [fst snd]. apply getitem_Ok in Ha.
    unfold skip_updated_at. rewrite cls_setattr, Hcols.
    unfold inspect in *. rewrite attrs_setattr.
    rewrite (any_has_changes_reassign _ a _ Ha), Hany.
    cbn [mbind result_bind]. unfold getitem. rewrite lookup_alter_eq, Ha.
    cbn [fmap option_fmap option_map mbind result_bind].
    by rewrite loaded_value_assign, setattr_setattr.
  - discriminate.
Qed.

End Hook.

(** ** The configuration against the schema and the registration *)

Ltac config_cases m H :=
  destruct m; vm_compute in H; try discriminate H; injection H as <-.

Lemma configured_iff_registered (m : Model) :
  is_Some (REAL_UPDATE_COLS !! tablename m) ↔ m ∈ registered.
Proof.
  split.
  - intros [cols H]. config_cases m H;
      by apply (bool_decide_unpack _); vm_compute.
  - intros H. apply (bool_decide_pack _) in H.
    destruct m; vm_compute in H; try (by destruct H);
      by apply (bool_decide_unpack _); vm_compute.
Qed.

Lemma configured_nonempty (m : Model) (cols : list string) :
  REAL_UPDATE_COLS !! tablename m = Some cols → cols ≠ [].
Proof. intros H. config_cases m H; discriminate. Qed.

Lemma configured_columns (m : Model) (cols : list string) :
  REAL_UPDATE_COLS !! tablename m = Some cols →
  Forall (λ c, c ∈ columns m) cols.
Proof.
  intros H. config_cases m H; by apply (bool_decide_unpack _); vm_compute.
Qed.

Lemma registered_updated_at (m : Model) :
  m ∈ registered → "updated_at" ∈ columns m.
Proof.
  intros H. apply (bool_decide_pack _) in H.
  destruct m; vm_compute in H; try (by destruct H);
    by apply (bool_decide_unpack _); vm_compute.
Qed.

Lemma registered_onupdate (m : Model) :
  m ∈ registered → "updated_at" ∈ onupdate_columns m.
Proof.
  intros H. apply (bool_decide_pack _) in H.
  destruct m; vm_compute in H; try (by destruct H);
    by apply (bool_decide_unpack _); vm_compute.
Qed.

Lemma listeners_for_before_update (m : Model) :
  listeners_for listeners m "before_update"
  = if bool_decide (m ∈ registered) then [skip_updated_at] else [].
Proof. destruct m; reflexivity. Qed.

Lemma listeners_for_nil (registry : list (Model * string * hook))
    (m : Model) (identifier : string) :
  Forall (λ entry : Model * string * hook, entry.1.2 ≠ identifier) registry →
  listeners_for registry m identifier = [].
Proof.
  induction 1 as [|entry registry Hne _ IH]; [done|].
  unfold listeners_for in *. simpl.
  rewrite decide_False by (by intros [_ ?]). exact IH.
Qed.

Lemma listeners_for_other_event (m : Model) (identifier : string) :
  identifier ≠ "before_update" → listeners_for listeners m identifier = [].
Proof.
  intros Hne. apply listeners_for_nil.
  unfold listeners, registered, event_listen. simpl.
  repeat constructor; simpl; congruence.
Qed.

Section Flush.

Implicit Types (t : Instance) (c : string) (config : gmap string (list string)).

Lemma run_listeners_single (fn : hook) config t :
  run_listeners [fn] config t = fn config t.
Proof. simpl. by destruct (fn config t) as [[config' t']|e]. Qed.

Lemma dispatch_update_registered config t :
  cls t ∈ registered → dispatch UPDATE config t = skip_updated_at config t.
Proof.
  intros H. unfold dispatch. cbn [mapper_event].
  rewrite listeners_for_before_update, bool_decide_eq_true_2 by done.
  apply run_listeners_single.
Qed.

Lemma dispatch_update_unregistered config t :
  cls t ∉ registered → dispatch UPDATE config t = Ok (config, t).
Proof.
  intros H. unfold dispatch. cbn [mapper_event].
  by rewrite listeners_for_before_update, bool_decide_eq_false_2.
Qed.

Lemma dispatch_insert config t : dispatch INSERT config t = Ok (config, t).
Proof.
  unfold dispatch. cbn [mapper_event].
  by rewrite listeners_for_other_event.
Qed.

Lemma well_formed_lookup t c :
  well_formed t → c ∈ columns (cls t) → is_Some (attrs t !! c).
Proof. intros Hwf Hc. unfold well_formed in Hwf. by rewrite Forall_forall in Hwf; apply Hwf. Qed.

(** On a well-formed instance of a configured class every lookup the hook
    makes succeeds. *)
Lemma configured_lookups t cols :
  REAL_UPDATE_COLS !! tablename (cls t) = Some cols →
  well_formed t →
  cols ≠ []
  ∧ (∀ c, c ∈ cols → is_Some (attrs t !! c))
  ∧ is_Some (attrs t !! "updated_at")
  ∧ cls t ∈ registered.
Proof.
  intros Hcfg Hwf.
  assert (Hreg : cls t ∈ registered) by (apply configured_iff_registered; eauto).
  split; [by eapply configured_nonempty|]. split; [|split; [|done]].
  - intros c Hc. apply well_formed_lookup; [done|].
    pose proof (configured_columns _ _ Hcfg) as Hcols.
    rewrite Forall_forall in Hcols. by apply Hcols.
  - apply well_formed_lookup; [done|]. by apply registered_updated_at.
Qed.

Lemma existsb_changed_true t cols :
  existsb (changed t) cols = true ↔ ∃ c, c ∈ cols ∧ changed t c = true.
Proof.
  rewrite existsb_exists. split; intros (c & Hc & Hch); exists c;
    (split; [by apply list_elem_of_In|done]).
Qed.

Lemma existsb_changed_false t cols :
  existsb (changed t) cols = false ↔ ∀ c, c ∈ cols → changed t c = false.
Proof.
  split.
  - intros Hex c Hc. destruct (changed t c) eqn:Hch; [|done].
    rewrite <- Hex. symmetry. apply existsb_changed_true. eauto.
  - intros Hall. destruct (existsb (changed t) cols) eqn:Hex; [|done].
    apply existsb_changed_true in Hex as (c & Hc & Hch).
    by rewrite Hall in Hch.
Qed.

End Flush.

(** ** One update, end to end *)

Section Update.

Implicit Types (t : Instance) (c : string) (cols : list string) (now : Z).

Lemma lookup_load (m : Model) (row : string → value) c :
  attrs (load m row) !! c
  = if bool_decide (c ∈ columns m) then Some (mkAttr (row c) None) else None.
Proof.
  unfold load. cbn [attrs]. induction (columns m) as [|c' l IH].
  - cbn [fmap list_fmap list_to_map foldr]. rewrite lookup_empty.
    rewrite bool_decide_eq_false_2; [done | apply not_elem_of_nil].
  - cbn [fmap list_fmap list_to_map foldr fst snd uncurry].
    rewrite lookup_insert. destruct (decide (c' = c)) as [->|Hne].
    + rewrite bool_decide_eq_true_2; [done | by left].
    + rewrite IH. destruct (decide (c ∈ l)) as [Hin|Hout].
      * rewrite !bool_decide_eq_true_2; [done | by right | done].
      * rewrite !bool_decide_eq_false_2; [done | | done].
        intros [->|Hin]%elem_of_cons; done.
Qed.

Lemma well_formed_load (m : Model) (row : string → value) :
  well_formed (load m row).
Proof.
  unfold well_formed. apply Forall_forall. intros c Hc.
  rewrite lookup_load, bool_decide_eq_true_2 by done. eauto.
Qed.

Lemma well_formed_setattr t c v : well_formed t → well_formed (setattr t c v).
Proof.
  unfold well_formed. rewrite cls_setattr, attrs_setattr.
  intros Hwf. eapply Forall_impl; [exact Hwf|]. intros c' [a Ha]. simpl.
  destruct (decide (c = c')) as [<-|Hne].
  - rewrite lookup_alter_eq, Ha. eauto.
  - rewrite lookup_alter_ne by done. eauto.
Qed.

Lemma has_changes_unassigned (a : AttributeState) :
  pending a = None → has_changes (history a) = false.
Proof. intros H. unfold history. by rewrite H. Qed.

Lemma net_change_true t :
  net_change t = true
  ↔ ∃ c a, attrs t !! c = Some a ∧ has_changes (history a) = true.
Proof. unfold net_change. by rewrite bool_decide_eq_true. Qed.

Lemma changed_net_change t c : changed t c = true → net_change t = true.
Proof.
  unfold changed. intros H. apply net_change_true.
  destruct (attrs t !! c) as [a|] eqn:Ha; [eauto | discriminate].
Qed.

Lemma clean_no_net_change t : clean t → net_change t = false.
Proof.
  intros Hclean. destruct (net_change t) eqn:Hnet; [|done].
  apply net_change_true in Hnet as (c & a & Ha & Hch).
  by rewrite (has_changes_unassigned a (Hclean c a Ha)) in Hch.
Qed.

(** Re-assigning [updated_at] its own value leaves the net changes of the
    object as they were, and with them the row that the flush writes. *)
Lemma net_change_reassign t a :
  attrs t !! "updated_at" = Some a →
  net_change (setattr t "updated_at" (loaded_value a)) = net_change t.
Proof.
  intros Ha. apply eq_true_iff_eq. rewrite !net_change_true, attrs_setattr.
  split; intros (c & a' & Hc & Hch).
  - destruct (decide ("updated_at" = c)) as [<-|Hne].
    + rewrite lookup_alter_eq, Ha in Hc. injection Hc as <-.
      rewrite history_reassign in Hch. eauto.
    + rewrite lookup_alter_ne in Hc by done. eauto.
  - destruct (decide ("updated_at" = c)) as [<-|Hne].
    + exists "updated_at", (assign (loaded_value a) a).
      rewrite lookup_alter_eq, Ha. split; [done|].
      rewrite history_reassign. congruence.
    + exists c, a'. by rewrite lookup_alter_ne.
Qed.

Lemma written_reassign (m : Model) now c a :
  written m now c (assign (loaded_value a) a) = written m now c a.
Proof.
  unfold written. rewrite history_reassign, loaded_value_assign.
  reflexivity.
Qed.

Lemma emit_update_reassign now t a :
  attrs t !! "updated_at" = Some a →
  emit_update now (setattr t "updated_at" (loaded_value a))
  = emit_update now t.
Proof.
  intros Ha. unfold emit_update.
  rewrite (net_change_reassign t a Ha), cls_setattr, attrs_setattr.
  f_equal. destruct (net_change t); apply map_eq; intros c.
  - rewrite !map_lookup_imap.
    destruct (decide ("updated_at" = c)) as [<-|Hne].
    + rewrite lookup_alter_eq, Ha. cbn. by rewrite written_reassign.
    + by rewrite lookup_alter_ne.
  - rewrite !lookup_fmap.
    destruct (decide ("updated_at" = c)) as [<-|Hne].
    + by rewrite lookup_alter_eq, Ha.
    + by rewrite lookup_alter_ne.
Qed.

Lemma attrs_emit_update now t c :
  attrs (emit_update now t) !! c
  = (λ a, mkAttr (if net_change t then written (cls t) now c a
                  else committed a) None) <$> attrs t !! c.
Proof.
  unfold emit_update. cbn [attrs]. destruct (net_change t).
  - rewrite map_lookup_imap. by destruct (attrs t !! c).
  - by rewrite lookup_fmap.
Qed.

Lemma persisted_emit_update now t c :
  persisted (emit_update now t) c
  = (λ a, if net_change t then written (cls t) now c a else committed a)
      <$> attrs t !! c.
Proof.
  unfold persisted. rewrite attrs_emit_update.
  by destruct (attrs t !! c).
Qed.

Lemma dispatch_update_inv config t r :
  dispatch UPDATE config t = Ok r →
  r = (config, t)
  ∨ ∃ a, attrs t !! "updated_at" = Some a
         ∧ r = (config, setattr t "updated_at" (loaded_value a)).
Proof.
  destruct (decide (cls t ∈ registered)) as [Hin|Hout].
  - rewrite dispatch_update_registered by done. apply skip_updated_at_inv.
  - rewrite dispatch_update_unregistered by done. intros [= <-]. by left.
Qed.

(** Whenever a flush returns, the row is the one the UPDATE writes without
    any listener. *)
Lemma flush_update_inv now config t r :
  flush_update now config t = Ok r → r = (config, emit_update now t).
Proof.
  unfold flush_update. destruct (bool_decide (clean t)).
  { cbn. by intros [= <-]. }
  destruct (dispatch UPDATE config t) as [r'|e] eqn:Hd; [|discriminate].
  cbn [mbind result_bind]. intros [= <-].
  apply dispatch_update_inv in Hd as [->|(a & Ha & ->)]; [done|].
  cbn [fst snd]. by rewrite emit_update_reassign.
Qed.

(** On a well-formed instance the hook returns. *)
Lemma skip_updated_at_returns t :
  well_formed t → returns (skip_updated_at REAL_UPDATE_COLS t).
Proof.
  intros Hwf. unfold returns.
  destruct (REAL_UPDATE_COLS !! tablename (cls t)) as [cols|] eqn:Hcfg.
  - destruct (configured_lookups t cols Hcfg Hwf) as (Hne & Hall & [a Ha] & _).
    destruct (existsb (changed t) cols) eqn:Hex.
    + rewrite (skip_updated_at_changed _ t cols) by done. eauto.
    + rewrite (skip_updated_at_unchanged _ t cols a) by done. eauto.
  - rewrite skip_updated_at_not_configured by done. eauto.
Qed.

Lemma flush_update_well_formed now t :
  well_formed t →
  flush_update now REAL_UPDATE_COLS t
  = Ok (REAL_UPDATE_COLS, emit_update now t).
Proof.
  intros Hwf.
  destruct (flush_update now REAL_UPDATE_COLS t) as [r|e] eqn:Hrun.
  { by rewrite (flush_update_inv _ _ _ _ Hrun). }
  exfalso. revert Hrun. unfold flush_update.
  destruct (bool_decide (clean t)); [discriminate|].
  destruct (decide (cls t ∈ registered)) as [Hin|Hout].
  - rewrite dispatch_update_registered by done.
    destruct (skip_updated_at_returns t Hwf) as [r Hr]. by rewrite Hr.
  - by rewrite dispatch_update_unregistered.
Qed.

(** A class without configuration: no listener, the plain UPDATE. *)
Lemma flush_update_not_configured now t :
  REAL_UPDATE_COLS !! tablename (cls t) = None →
  flush_update now REAL_UPDATE_COLS t
  = Ok (REAL_UPDATE_COLS, emit_update now t).
Proof.
  intros Hcfg. unfold flush_update.
  destruct (bool_decide (clean t)); [done|].
  rewrite dispatch_update_unregistered; [done|].
  intros Hreg%configured_iff_registered. rewrite Hcfg in Hreg.
  by destruct Hreg.
Qed.

(** A configured class, some meaningful column changed: the plain UPDATE. *)
Lemma flush_update_changed now t cols :
  REAL_UPDATE_COLS !! tablename (cls t) = Some cols →
  well_formed t →
  existsb (changed t) cols = true →
  flush_update now REAL_UPDATE_COLS t
  = Ok (REAL_UPDATE_COLS, emit_update now t).
Proof. intros _ Hwf _. by apply flush_update_well_formed. Qed.

(** An UPDATE stamps an [onupdate] column that has no net change. *)
Lemma persisted_onupdate now t c a :
  attrs t !! c = Some a →
  has_changes (history a) = false →
  c ∈ onupdate_columns (cls t) →
  net_change t = true →
  persisted (emit_update now t) c = Some (VDateTime now).
Proof.
  intros Ha Hch Hon Hnet. rewrite persisted_emit_update, Ha, Hnet.
  unfold written. cbn [fmap option_fmap option_map]. rewrite Hch.
  by rewrite bool_decide_eq_true_2.
Qed.

(** A column with a net change gets the value on the object. *)
Lemma persisted_net_changed now t c a :
  attrs t !! c = Some a →
  has_changes (history a) = true →
  persisted (emit_update now t) c = Some (loaded_value a).
Proof.
  intros Ha Hch. rewrite persisted_emit_update, Ha.
  rewrite (proj2 (net_change_true t)) by eauto.
  unfold written. cbn [fmap option_fmap option_map]. by rewrite Hch.
Qed.

(** Without a net change the row stays. *)
Lemma persisted_no_net_change now t c :
  net_change t = false →
  persisted (emit_update now t) c = persisted t c.
Proof. intros Hnet. by rewrite persisted_emit_update, Hnet. Qed.

End Update.

(** ** The scenarios of the specification, evaluated *)

Section Scenarios.

Local Open Scope Z_scope.

(** A project with [updated_at = 100]; the caller sets [status]; flushed at
    200: the row now carries 200. *)
Example scenario_project_status :
  ∃ t', flush_update 200 REAL_UPDATE_COLS project_set_status
        = Ok (REAL_UPDATE_COLS, t')
        ∧ persisted t' "updated_at" = Some (VDateTime 200).
Proof. eexists. split; vm_compute; reflexivity. Qed.

(** An organization with [updated_at = 100]; the caller sets [name]. *)
Example scenario_organization_name :
  ∃ t', flush_update 200 REAL_UPDATE_COLS organization_set_name
        = Ok (REAL_UPDATE_COLS, t')
        ∧ persisted t' "updated_at" = Some (VDateTime 200).
Proof. eexists. split; vm_compute; reflexivity. Qed.

(** The caller sets only [requirements_text], which no set lists: the hook
    assigns [updated_at] the 100 it already has, the UPDATE goes out without
    it, and the row carries 200 all the same. *)
Example scenario_project_requirements_text :
  ∃ t', flush_update 200 REAL_UPDATE_COLS project_set_requirements_text
        = Ok (REAL_UPDATE_COLS, t')
        ∧ persisted t' "updated_at" = Some (VDateTime 200).
Proof. eexists. split; vm_compute; reflexivity. Qed.

(** A flush of an object nobody assigned to: no UPDATE, the row keeps
    100. *)
Example scenario_cascade_save :
  ∃ t', flush_update 200 REAL_UPDATE_COLS project_at_100
        = Ok (REAL_UPDATE_COLS, t')
        ∧ persisted t' "updated_at" = Some (VDateTime 100).
Proof. eexists. split; vm_compute; reflexivity. Qed.

(** A role is outside the configuration: any update moves its timestamp. *)
Example scenario_role_description :
  ∃ t', flush_update 200 REAL_UPDATE_COLS role_set_description
        = Ok (REAL_UPDATE_COLS, t')
        ∧ persisted t' "updated_at" = Some (VDateTime 200).
Proof. eexists. split; vm_compute; reflexivity. Qed.

(** The lookups are real: without attribute states the first one raises;
    and [any] stops at the first changed column, before a lookup that would
    have raised. *)
Example scenario_missing_attributes :
  skip_updated_at REAL_UPDATE_COLS project_bare = Raise (KeyError "status").
Proof. reflexivity. Qed.

Example scenario_short_circuit :
  skip_updated_at REAL_UPDATE_COLS project_status_only
  = Ok (REAL_UPDATE_COLS, project_status_only).
Proof. reflexivity. Qed.

End Scenarios.

(** * The claims *)

Section Claims.

Local Open Scope Z_scope.

(** C1.  The claim asks that an update which changes no column of the
    class's meaningful set leave [updated_at] at its persisted value.  The
    hook tries: with no meaningful column changed it takes the assigning
    branch.  But what it assigns is the value [updated_at] already has on
    the object, which is no net change, so the UPDATE that another column's
    change causes goes out without [updated_at] and [onupdate] stamps it:
    on every well-formed instance of a configured class with [updated_at]
    left alone, a change outside the meaningful set commits [updated_at] at
    the clock reading of the update. *)
Theorem skip_updated_at_does_not_keep_updated_at
    (now : Z) (t : Instance) (cols : list string) (c : string)
    (u : AttributeState) :
  REAL_UPDATE_COLS !! tablename (cls t) = Some cols →
  well_formed t →
  (∀ c', c' ∈ cols → changed t c' = false) →
  changed t c = true →
  attrs t !! "updated_at" = Some u →
  pending u = None →
  skip_updated_at REAL_UPDATE_COLS t
  = Ok (REAL_UPDATE_COLS, setattr t "updated_at" (committed u))
  ∧ ∃ t', flush_update now REAL_UPDATE_COLS t = Ok (REAL_UPDATE_COLS, t')
          ∧ persisted t "updated_at" = Some (committed u)
          ∧ persisted t' "updated_at" = Some (VDateTime now).
Proof.
  intros Hcfg Hwf Hnone Hch Hu Hpend.
  destruct (configured_lookups t cols Hcfg Hwf) as (Hne & Hall & _ & Hreg).
  split.
  { rewrite (skip_updated_at_unchanged _ t cols u);
      [|done..|by apply existsb_changed_false|done].
    unfold loaded_value. by rewrite Hpend. }
  exists (emit_update now t).
  split; [by apply flush_update_well_formed|].
  split; [unfold persisted; by rewrite Hu|].
  apply (persisted_onupdate now t "updated_at" u); [done| | |].
  - by apply has_changes_unassigned.
  - by apply registered_onupdate.
  - by apply (changed_net_change t c).
Qed.

Lemma skip_updated_at_does_not_keep_updated_at_witness :
  (∀ c', c' ∈ project_cols → changed project_set_requirements_text c' = false)
  ∧ changed project_set_requirements_text "requirements_text" = true
  ∧ skip_updated_at REAL_UPDATE_COLS project_set_requirements_text
    = Ok (REAL_UPDATE_COLS,
          setattr project_set_requirements_text "updated_at" (VDateTime 100))
  ∧ ∃ t', flush_update 200 REAL_UPDATE_COLS project_set_requirements_text
          = Ok (REAL_UPDATE_COLS, t')
          ∧ persisted project_set_requirements_text "updated_at"
            = Some (VDateTime 100)
          ∧ persisted t' "updated_at" = Some (VDateTime 200).
Proof.
  assert (Hwf : well_formed project_set_requirements_text)
    by (apply (bool_decide_unpack _); vm_compute; exact I).
  assert (Hnone : ∀ c', c' ∈ project_cols →
                        changed project_set_requirements_text c' = false).
  { apply Forall_forall. apply (bool_decide_unpack _). vm_compute. exact I. }
  assert (Hch : changed project_set_requirements_text "requirements_text"
                = true) by reflexivity.
  split; [exact Hnone|]. split; [exact Hch|].
  exact (skip_updated_at_does_not_keep_updated_at
           200 project_set_requirements_text project_cols
           "requirements_text" (mkAttr (VDateTime 100) None)
           eq_refl Hwf Hnone Hch eq_refl eq_refl).
Defined.

(** C2 as stated fails: on a Project row with [updated_at = 100], an update
    that changes only [description], flushed at clock 200, does not commit
    [updated_at = 100]; [description] is a member of the project set. *)
Lemma project_description_only_counterexample :
  persisted project_set_description "updated_at" = Some (VDateTime 100)
  ∧ filter (λ c, changed project_set_description c = true) (columns Project)
    = ["description"]
  ∧ ¬ (∃ t', flush_update 200 REAL_UPDATE_COLS project_set_description
             = Ok (REAL_UPDATE_COLS, t')
             ∧ persisted t' "updated_at" = Some (VDateTime 100)).
Proof.
  split; [reflexivity|]. split; [by vm_compute|].
  intros (t' & Hflush & Hsame).
  assert (Hrun : flush_update 200 REAL_UPDATE_COLS project_set_description
                 = Ok (REAL_UPDATE_COLS,
                       emit_update 200 project_set_description)).
  { apply (flush_update_changed 200 _ project_cols);
      [reflexivity | |reflexivity].
    apply (bool_decide_unpack _). vm_compute. exact I. }
  rewrite Hrun in Hflush. injection Hflush as <-.
  vm_compute in Hsame. discriminate Hsame.
Qed.

(** C2, amended.  For a Project row with [updated_at = T0], an update in
    which the caller changes only [description] is committed with
    [updated_at] set to the clock reading of the update: [description]
    belongs to the project set, so the hook leaves the auto-timestamp
    alone. *)
Theorem project_description_only_advances
    (now T0 : Z) (row : string → value) (v : value) :
  row "updated_at" = VDateTime T0 →
  v ≠ row "description" →
  (∃ cols, REAL_UPDATE_COLS !! tablename Project = Some cols
           ∧ "description" ∈ cols)
  ∧ persisted (setattr (load Project row) "description" v) "updated_at"
    = Some (VDateTime T0)
  ∧ ∃ t', flush_update now REAL_UPDATE_COLS
                       (setattr (load Project row) "description" v)
          = Ok (REAL_UPDATE_COLS, t')
          ∧ persisted t' "updated_at" = Some (VDateTime now).
Proof.
  intros HT0 Hv. set (t := setattr (load Project row) "description" v).
  assert (Hup : attrs t !! "updated_at" = Some (mkAttr (VDateTime T0) None)).
  { unfold t. rewrite attrs_setattr, lookup_alter_ne by done.
    rewrite lookup_load, HT0. reflexivity. }
  assert (Hdesc : changed t "description" = true).
  { assert (Hl : attrs (load Project row) !! "description"
                 = Some (mkAttr (row "description") None))
      by (rewrite lookup_load; reflexivity).
    unfold changed, t. rewrite attrs_setattr, lookup_alter_eq, Hl.
    cbn [fmap option_fmap option_map]. rewrite has_changes_assign.
    by apply bool_decide_eq_true_2. }
  split.
  { exists project_cols. split; [reflexivity|].
    by apply (bool_decide_unpack _); vm_compute. }
  split; [unfold persisted; by rewrite Hup|].
  exists (emit_update now t). split.
  - apply (flush_update_changed now t project_cols); [reflexivity| |].
    + apply well_formed_setattr, well_formed_load.
    + apply existsb_changed_true. exists "description".
      split; [|done]. by apply (bool_decide_unpack _); vm_compute.
  - apply (persisted_onupdate now t "updated_at" _ Hup); [reflexivity| |].
    + by apply (bool_decide_unpack _); vm_compute.
    + by apply (changed_net_change t "description").
Qed.

Lemma project_description_only_advances_witness :
  sample_row 100 "updated_at" = VDateTime 100
  ∧ VStr "revised" ≠ sample_row 100 "description"
  ∧ ∃ t', flush_update 200 REAL_UPDATE_COLS project_set_description
          = Ok (REAL_UPDATE_COLS, t')
          ∧ persisted t' "updated_at" = Some (VDateTime 200).
Proof.
  assert (H1 : sample_row 100 "updated_at" = VDateTime 100) by reflexivity.
  assert (H2 : VStr "revised" ≠ sample_row 100 "description")
    by (vm_compute; discriminate).
  split; [exact H1|]. split; [exact H2|].
  exact (proj2 (proj2 (project_description_only_advances
                         200 100 (sample_row 100) (VStr "revised") H1 H2))).
Defined.

(** C3 as stated fails: the file set does contain [description]. *)
Lemma file_set_excludes_description_counterexample :
  ¬ ((∀ cols, REAL_UPDATE_COLS !! tablename File = Some cols →
              "description" ∉ cols)
     ∧ (∃ cols, REAL_UPDATE_COLS !! tablename Organization = Some cols
                ∧ "name" ∈ cols ∧ "description" ∈ cols)).
Proof.
  intros [Hfile _].
  apply (Hfile ["status"; "name"; "description"; "active_version_id";
                "is_active"]); [reflexivity|].
  by apply (bool_decide_unpack _); vm_compute.
Qed.

(** C3, amended.  The configured set of the file entity type includes
    [description], and the organization set includes both [name] and
    [description]. *)
Theorem file_and_organization_track_description :
  (∃ cols, REAL_UPDATE_COLS !! tablename File = Some cols
           ∧ "description" ∈ cols)
  ∧ (∃ cols, REAL_UPDATE_COLS !! tablename Organization = Some cols
             ∧ "name" ∈ cols ∧ "description" ∈ cols).
Proof.
  split.
  - exists ["status"; "name"; "description"; "active_version_id"; "is_active"].
    split; [reflexivity|]. by apply (bool_decide_unpack _); vm_compute.
  - exists ["name"; "description"; "is_active"].
    split; [reflexivity|].
    split; by apply (bool_decide_unpack _); vm_compute.
Qed.

(** C4.  On an instance whose table name is not a key of the configuration
    map the hook returns at once with config and instance as they were, so
    the flush is the plain one: whenever an UPDATE goes out (some column has
    a net change) the auto-timestamp writes the clock reading to an
    [updated_at] the caller left alone, and when none does the row stays. *)
Theorem unconfigured_table_no_action (now : Z) (t : Instance) :
  REAL_UPDATE_COLS !! tablename (cls t) = None →
  skip_updated_at REAL_UPDATE_COLS t = Ok (REAL_UPDATE_COLS, t)
  ∧ flush_update now REAL_UPDATE_COLS t
    = Ok (REAL_UPDATE_COLS, emit_update now t)
  ∧ (∀ a, attrs t !! "updated_at" = Some a → pending a = None →
          "updated_at" ∈ onupdate_columns (cls t) →
          persisted (emit_update now t) "updated_at"
          = Some (if net_change t then VDateTime now else committed a)).
Proof.
  intros Hcfg. split; [by apply skip_updated_at_not_configured|].
  split; [by apply flush_update_not_configured|].
  intros a Ha Hpend Hon. destruct (net_change t) eqn:Hnet.
  - apply (persisted_onupdate now t "updated_at" a); [done| |done..].
    by apply has_changes_unassigned.
  - rewrite persisted_no_net_change by done. unfold persisted. by rewrite Ha.
Qed.

Lemma unconfigured_table_no_action_witness :
  REAL_UPDATE_COLS !! tablename (cls event_log_set_metadata) = None
  ∧ skip_updated_at REAL_UPDATE_COLS event_log_set_metadata
    = Ok (REAL_UPDATE_COLS, event_log_set_metadata)
  ∧ flush_update 200 REAL_UPDATE_COLS event_log_set_metadata
    = Ok (REAL_UPDATE_COLS, emit_update 200 event_log_set_metadata).
Proof.
  assert (Hcfg : REAL_UPDATE_COLS !! tablename (cls event_log_set_metadata)
                 = None) by reflexivity.
  pose proof (unconfigured_table_no_action 200 event_log_set_metadata Hcfg)
    as (Hskip & Hflush & _).
  split; [exact Hcfg|]. split; [exact Hskip | exact Hflush].
Defined.

(** C5.  On a well-formed instance of a configured class with at least one
    column of the meaningful set changed, the hook returns the instance
    untouched, whatever other columns have changed as well, so the update is
    the plain UPDATE and the auto-timestamp stamps an [updated_at] the
    caller left alone with the clock reading. *)
Theorem meaningful_change_leaves_updated_at
    (now : Z) (t : Instance) (cols : list string) (c : string) :
  REAL_UPDATE_COLS !! tablename (cls t) = Some cols →
  well_formed t →
  c ∈ cols →
  changed t c = true →
  skip_updated_at REAL_UPDATE_COLS t = Ok (REAL_UPDATE_COLS, t)
  ∧ flush_update now REAL_UPDATE_COLS t
    = Ok (REAL_UPDATE_COLS, emit_update now t)
  ∧ (∀ a, attrs t !! "updated_at" = Some a → pending a = None →
          persisted (emit_update now t) "updated_at" = Some (VDateTime now)).
Proof.
  intros Hcfg Hwf Hc Hch.
  assert (Hex : existsb (changed t) cols = true)
    by (apply existsb_changed_true; eauto).
  destruct (configured_lookups t cols Hcfg Hwf) as (_ & Hall & _ & Hreg).
  split; [by apply (skip_updated_at_changed _ t cols)|].
  split; [by apply (flush_update_changed now t cols)|].
  intros a Ha Hpend.
  apply (persisted_onupdate now t "updated_at" a); [done| | |].
  - by apply has_changes_unassigned.
  - by apply registered_onupdate.
  - by apply (changed_net_change t c).
Qed.

Lemma meaningful_change_leaves_updated_at_witness :
  REAL_UPDATE_COLS !! tablename (cls project_set_status_and_requirements_text)
  = Some project_cols
  ∧ well_formed project_set_status_and_requirements_text
  ∧ "status" ∈ project_cols
  ∧ changed project_set_status_and_requirements_text "status" = true
  ∧ changed project_set_status_and_requirements_text "requirements_text"
    = true
  ∧ skip_updated_at REAL_UPDATE_COLS project_set_status_and_requirements_text
    = Ok (REAL_UPDATE_COLS, project_set_status_and_requirements_text)
  ∧ flush_update 200 REAL_UPDATE_COLS project_set_status_and_requirements_text
    = Ok (REAL_UPDATE_COLS,
          emit_update 200 project_set_status_and_requirements_text)
  ∧ persisted (emit_update 200 project_set_status_and_requirements_text)
              "updated_at"
    = Some (VDateTime 200).
Proof.
  assert (Hcfg : REAL_UPDATE_COLS
                   !! tablename (cls project_set_status_and_requirements_text)
                 = Some project_cols) by reflexivity.
  assert (Hwf : well_formed project_set_status_and_requirements_text)
    by (apply (bool_decide_unpack _); vm_compute; exact I).
  assert (Hc : "status" ∈ project_cols)
    by (apply (bool_decide_unpack _); vm_compute; exact I).
  assert (Hch : changed project_set_status_and_requirements_text "status"
                = true) by reflexivity.
  pose proof (meaningful_change_leaves_updated_at
                200 project_set_status_and_requirements_text project_cols
                "status" Hcfg Hwf Hc Hch) as (Hskip & Hflush & Hauto).
  split; [exact Hcfg|]. split; [exact Hwf|]. split; [exact Hc|].
  split; [exact Hch|]. split; [reflexivity|].
  split; [exact Hskip|]. split; [exact Hflush|].
  exact (Hauto (mkAttr (VDateTime 100) None) eq_refl eq_refl).
Defined.

(** C6.  The hook is idempotent, under any configuration and on any
    instance: running it on its own result returns that result again (and
    raises when the first run raises), so the [updated_at] written after two
    runs is the one written after one. *)
Theorem skip_updated_at_twice_is_once
    (config : gmap string (list string)) (t : Instance) :
  (skip_updated_at config t ≫= λ r, skip_updated_at r.1 r.2)
  = skip_updated_at config t
  ∧ ∀ now,
      (skip_updated_at config t ≫= λ r, skip_updated_at r.1 r.2
         ≫= λ r', Ok (persisted (emit_update now r'.2) "updated_at"))
      = (skip_updated_at config t
         ≫= λ r, Ok (persisted (emit_update now r.2) "updated_at")).
Proof.
  pose proof (skip_updated_at_idempotent config t) as Hidem.
  split; [exact Hidem|]. intros now.
  destruct (skip_updated_at config t) as [r|e]; [|reflexivity].
  cbn [mbind result_bind] in *. by rewrite Hidem.
Qed.

(** C7.  Whenever the hook returns, the configuration map is the one it was
    given, the instance has the same class and the same attributes, every
    attribute other than [updated_at] is in the state it was in, and of
    [updated_at] itself the value of the row is kept: only its assigned
    value may have been rewritten. *)
Theorem skip_updated_at_frame
    (config config' : gmap string (list string)) (t t' : Instance) :
  skip_updated_at config t = Ok (config', t') →
  config' = config
  ∧ cls t' = cls t
  ∧ dom (attrs t') = dom (attrs t)
  ∧ (∀ c, c ≠ "updated_at" → attrs t' !! c = attrs t !! c)
  ∧ persisted t' "updated_at" = persisted t "updated_at".
Proof.
  intros Hrun. apply skip_updated_at_inv in Hrun as [Heq|(a & Ha & Heq)].
  - injection Heq as -> ->. done.
  - injection Heq as -> ->. split; [done|]. split; [done|].
    rewrite attrs_setattr. split; [apply dom_alter_L|]. split.
    + intros c Hc. by rewrite lookup_alter_ne.
    + unfold persisted. rewrite attrs_setattr, lookup_alter_eq.
      by destruct (attrs t !! "updated_at").
Qed.

Lemma skip_updated_at_frame_witness :
  skip_updated_at REAL_UPDATE_COLS project_set_requirements_text
  = Ok (REAL_UPDATE_COLS,
        setattr project_set_requirements_text "updated_at" (VDateTime 100))
  ∧ dom (attrs (setattr project_set_requirements_text "updated_at"
                        (VDateTime 100)))
    = dom (attrs project_set_requirements_text)
  ∧ (∀ c, c ≠ "updated_at" →
          attrs (setattr project_set_requirements_text "updated_at"
                         (VDateTime 100)) !! c
          = attrs project_set_requirements_text !! c).
Proof.
  assert (Hrun : skip_updated_at REAL_UPDATE_COLS project_set_requirements_text
                 = Ok (REAL_UPDATE_COLS,
                       setattr project_set_requirements_text "updated_at"
                               (VDateTime 100)))
    by (vm_compute; reflexivity).
  pose proof (skip_updated_at_frame _ _ _ _ Hrun) as (_ & _ & Hdom & Hrest & _).
  split; [exact Hrun|]. split; [exact Hdom | exact Hrest].
Defined.

(** C8.  Every key of the configuration map is the table name of a model
    class; every column name in a configured set is a column attribute of
    that class; and on every well-formed instance the hook returns: none of
    its lookups raises. *)
Theorem skip_updated_at_total :
  (∀ k, is_Some (REAL_UPDATE_COLS !! k) →
        ∃ m, tablename m = k ∧ m ∈ registered)
  ∧ (∀ m cols, REAL_UPDATE_COLS !! tablename m = Some cols →
               ∀ c, c ∈ cols → c ∈ columns m)
  ∧ (∀ t, well_formed t → returns (skip_updated_at REAL_UPDATE_COLS t)).
Proof.
  split; [|split].
  - intros k [cols H]. unfold REAL_UPDATE_COLS in H.
    apply elem_of_list_to_map_2 in H.
    repeat (apply elem_of_cons in H as [[= -> ->]|H]);
      [> exists Project | exists File | exists FileVersion | exists User
       | exists AnnotationJob | exists Assignment | exists Review
       | exists ExportLog | exists Organization | by apply elem_of_nil in H ];
      (split; [reflexivity | by apply (bool_decide_unpack _); vm_compute]).
  - intros m cols Hcfg c Hc.
    pose proof (configured_columns m cols Hcfg) as Hcols.
    rewrite Forall_forall in Hcols. by apply Hcols.
  - intros t Hwf. unfold returns.
    destruct (REAL_UPDATE_COLS !! tablename (cls t)) as [cols|] eqn:Hcfg.
    + destruct (configured_lookups t cols Hcfg Hwf) as (Hne & Hall & [a Ha] & _).
      destruct (existsb (changed t) cols) eqn:Hex.
      * rewrite (skip_updated_at_changed _ t cols) by done. eauto.
      * rewrite (skip_updated_at_unchanged _ t cols a) by done. eauto.
    + rewrite skip_updated_at_not_configured by done. eauto.
Qed.

Lemma skip_updated_at_total_witness :
  well_formed user_set_completed_task_count
  ∧ returns (skip_updated_at REAL_UPDATE_COLS user_set_completed_task_count).
Proof.
  assert (Hwf : well_formed user_set_completed_task_count)
    by (apply (bool_decide_unpack _); vm_compute; exact I).
  split; [exact Hwf|].
  exact (proj2 (proj2 skip_updated_at_total)
               user_set_completed_task_count Hwf).
Defined.

(** C9.  The hook listens to [before_update] and to no other mapper event;
    flushing a new object fires [before_insert], which reaches no listener,
    so a transient instance passes through untouched; and flushing an update
    of a well-formed instance always returns. *)
Theorem hook_runs_on_update_only :
  (∀ m identifier, identifier ≠ "before_update" →
                   listeners_for listeners m identifier = [])
  ∧ (∀ config t, dispatch INSERT config t = Ok (config, t))
  ∧ (∀ now t, well_formed t → returns (flush_update now REAL_UPDATE_COLS t)).
Proof.
  split; [exact listeners_for_other_event|].
  split; [exact dispatch_insert|].
  intros now t Hwf. unfold returns.
  rewrite flush_update_well_formed by done. eauto.
Qed.

Lemma hook_runs_on_update_only_witness :
  listeners_for listeners File "before_insert" = []
  ∧ dispatch INSERT REAL_UPDATE_COLS file_new = Ok (REAL_UPDATE_COLS, file_new)
  ∧ well_formed file_at_100
  ∧ returns (flush_update 200 REAL_UPDATE_COLS file_at_100).
Proof.
  destruct hook_runs_on_update_only as (Hother & Hinsert & Hflush).
  assert (Hne : "before_insert" ≠ "before_update") by discriminate.
  assert (Hwf : well_formed file_at_100)
    by (apply (bool_decide_unpack _); vm_compute; exact I).
  split; [exact (Hother File "before_insert" Hne)|].
  split; [exact (Hinsert REAL_UPDATE_COLS file_new)|].
  split; [exact Hwf | exact (Hflush 200 file_at_100 Hwf)].
Defined.

(** C10.  The registration loop attaches the hook to exactly nine classes,
    for [before_update] only; each of them has its table name in the
    configuration map with a non-empty set, so the hook's lookup finds a set
    and the empty-set exit is never taken for them; an instance of any other
    class ([EventLog], [Role], [Permission] among them) goes through every
    flush untouched by the hook. *)
Theorem registration_covers_exactly_the_configured :
  listening listeners "before_update"
  = [Project; File; FileVersion; User; AnnotationJob;
     Assignment; Review; ExportLog; Organization]
  ∧ NoDup (listening listeners "before_update")
  ∧ length (listening listeners "before_update") = 9%nat
  ∧ (∀ identifier, identifier ≠ "before_update" →
                   listening listeners identifier = [])
  ∧ (∀ m, m ∈ registered →
          listeners_for listeners m "before_update" = [skip_updated_at]
          ∧ ∃ cols, REAL_UPDATE_COLS !! tablename m = Some cols ∧ cols ≠ [])
  ∧ (∀ op config t, cls t ∉ registered →
                    dispatch op config t = Ok (config, t))
  ∧ (EventLog ∉ registered) ∧ (Role ∉ registered)
  ∧ (Permission ∉ registered).
Proof.
  split; [reflexivity|].
  split; [by apply (bool_decide_unpack _); vm_compute|].
  split; [reflexivity|].
  split; [|split; [|split]].
  - intros identifier Hne. unfold listening, listeners, registered, event_listen.
    simpl. by rewrite !decide_False by congruence.
  - intros m Hm. split.
    + by rewrite listeners_for_before_update, bool_decide_eq_true_2.
    + apply configured_iff_registered in Hm as [cols Hcols].
      exists cols. split; [done|]. by eapply configured_nonempty.
  - intros [|] config t Hout.
    + apply dispatch_insert.
    + by apply dispatch_update_unregistered.
  - repeat split; by apply (bool_decide_unpack _); vm_compute.
Qed.

Lemma registration_covers_exactly_the_configured_witness :
  Organization ∈ registered
  ∧ (∃ cols, REAL_UPDATE_COLS !! tablename Organization = Some cols
             ∧ cols ≠ [])
  ∧ (cls role_set_description ∉ registered)
  ∧ dispatch UPDATE REAL_UPDATE_COLS role_set_description
    = Ok (REAL_UPDATE_COLS, role_set_description).
Proof.
  destruct registration_covers_exactly_the_configured
    as (_ & _ & _ & _ & Hin & Hout & _).
  assert (Hreg : Organization ∈ registered)
    by (apply (bool_decide_unpack _); vm_compute; exact I).
  assert (Hnot : cls role_set_description ∉ registered)
    by (apply (bool_decide_unpack _); vm_compute; exact I).
  split; [exact Hreg|]. split; [exact (proj2 (Hin Organization Hreg))|].
  split; [exact Hnot|].
  exact (Hout UPDATE REAL_UPDATE_COLS role_set_description Hnot).
Defined.

End Claims.

(** * Further properties of the hook *)

Section HookBehaviour.

Implicit Types (state : gmap string AttributeState) (cols : list string).
Implicit Types (t : Instance) (c : string) (config : gmap string (list string)).

Lemma any_has_changes_Raise state cols e :
  any_has_changes state cols = Raise e →
  ∃ c, c ∈ cols ∧ state !! c = None ∧ e = KeyError c.
Proof.
  induction cols as [|c cols IH]; [discriminate|]. simpl. unfold getitem.
  destruct (state !! c) as [a|] eqn:Hc; simpl.
  - destruct (has_changes (history a)); [discriminate|].
    intros (c' & Hin & Hnone & ->)%IH. exists c'. split; [by right|done].
  - intros [= <-]. exists c. split; [by left|done].
Qed.

Lemma any_has_changes_false state cols :
  any_has_changes state cols = Ok false →
  ∀ c, c ∈ cols →
       ∃ a, state !! c = Some a ∧ has_changes (history a) = false.
Proof.
  induction cols as [|c cols IH]; intros Hrun c' Hin.
  { by apply elem_of_nil in Hin. }
  simpl in Hrun. unfold getitem in Hrun.
  destruct (state !! c) as [a|] eqn:Hc; simpl in Hrun; [|discriminate].
  destruct (has_changes (history a)) eqn:Hch; [discriminate|].
  apply elem_of_cons in Hin as [->|Hin]; [eauto | by apply IH].
Qed.

(** X1.  The sets of the configuration have no order: under two
    configurations that give the target's table the same columns in
    different orders, the hook does the same to a target on which all of
    these columns are mapped. *)
Theorem skip_updated_at_order_irrelevant
    config config' t cols cols' :
  config !! tablename (cls t) = Some cols →
  config' !! tablename (cls t) = Some cols' →
  cols ≡ₚ cols' →
  (∀ c, c ∈ cols → is_Some (attrs t !! c)) →
  outcome (skip_updated_at config t) = outcome (skip_updated_at config' t).
Proof.
  intros Hcfg Hcfg' Hperm Hall. unfold skip_updated_at.
  rewrite Hcfg, Hcfg'. cbn [default from_option id].
  destruct cols as [|c cols].
  { apply Permutation_nil_l in Hperm as <-. reflexivity. }
  destruct cols' as [|c' cols'].
  { by apply Permutation_nil_r in Hperm. }
  unfold inspect.
  rewrite <- (any_has_changes_Permutation (attrs t) _ _ Hperm Hall).
  destruct (any_has_changes (attrs t) (c :: cols)) as [[|]|e];
    [reflexivity| |reflexivity].
  cbn [mbind result_bind].
  by destruct (getitem (attrs t) "updated_at").
Qed.

Lemma skip_updated_at_order_irrelevant_witness :
  REAL_UPDATE_COLS !! tablename (cls project_set_requirements_text)
  = Some project_cols
  ∧ <["project" := reverse project_cols]> REAL_UPDATE_COLS
      !! tablename (cls project_set_requirements_text)
    = Some (reverse project_cols)
  ∧ project_cols ≡ₚ reverse project_cols
  ∧ outcome (skip_updated_at REAL_UPDATE_COLS project_set_requirements_text)
    = outcome (skip_updated_at
                 (<["project" := reverse project_cols]> REAL_UPDATE_COLS)
                 project_set_requirements_text).
Proof.
  assert (H1 : REAL_UPDATE_COLS
                 !! tablename (cls project_set_requirements_text)
               = Some project_cols) by reflexivity.
  assert (H2 : <["project" := reverse project_cols]> REAL_UPDATE_COLS
                 !! tablename (cls project_set_requirements_text)
               = Some (reverse project_cols)) by reflexivity.
  assert (H3 : project_cols ≡ₚ reverse project_cols)
    by (symmetry; apply reverse_Permutation).
  assert (H4 : ∀ c, c ∈ project_cols →
                    is_Some (attrs project_set_requirements_text !! c)).
  { apply Forall_forall. apply (bool_decide_unpack _). vm_compute. exact I. }
  split; [exact H1|]. split; [exact H2|]. split; [exact H3|].
  exact (skip_updated_at_order_irrelevant _ _ _ _ _ H1 H2 H3 H4).
Defined.

(** Without the mapped columns the order does show: [any] stops at a changed
    column before it reaches a missing one, or raises on the missing one
    first. *)
Example order_shows_on_unmapped_columns :
  skip_updated_at {[ "project" := ["status"; "name"] ]} project_status_only
  = Ok ({[ "project" := ["status"; "name"] ]}, project_status_only)
  ∧ skip_updated_at {[ "project" := ["name"; "status"] ]} project_status_only
    = Raise (KeyError "name").
Proof. split; reflexivity. Qed.

(** X2.  When the hook raises, it raises [KeyError] on a name that the
    target does not map: a column of the set configured for the target's
    table, or [updated_at] once every configured column was found mapped
    and unchanged.  It does not raise for a table without configuration. *)
Theorem skip_updated_at_raises_only_KeyError config t e :
  skip_updated_at config t = Raise e →
  ∃ cols c,
    config !! tablename (cls t) = Some cols
    ∧ e = KeyError c
    ∧ attrs t !! c = None
    ∧ (c ∈ cols
       ∨ (c = "updated_at"
          ∧ ∀ c', c' ∈ cols →
                  is_Some (attrs t !! c') ∧ changed t c' = false)).
Proof.
  unfold skip_updated_at.
  destruct (config !! tablename (cls t)) as [cols|] eqn:Hcfg;
    [|discriminate].
  cbn [default from_option id]. destruct cols as [|c0 cols]; [discriminate|].
  destruct (any_has_changes (inspect t) (c0 :: cols)) as [[|]|e'] eqn:Hany;
    cbn [mbind result_bind].
  - discriminate.
  - unfold getitem, inspect.
    destruct (attrs t !! "updated_at") as [a|] eqn:Hup; [discriminate|].
    intros [= <-]. exists (c0 :: cols), "updated_at".
    split; [done|]. split; [done|]. split; [done|]. right. split; [done|].
    intros c' Hin.
    destruct (any_has_changes_false _ _ Hany c' Hin) as (a & Ha & Hch).
    unfold inspect in Ha. split; [eauto|]. unfold changed. by rewrite Ha.
  - intros [= <-].
    apply any_has_changes_Raise in Hany as (c & Hin & Hnone & ->).
    exists (c0 :: cols), c. split; [done|]. split; [done|].
    split; [exact Hnone | by left].
Qed.

Lemma skip_updated_at_raises_only_KeyError_witness :
  skip_updated_at REAL_UPDATE_COLS project_bare = Raise (KeyError "status")
  ∧ ∃ cols c,
      REAL_UPDATE_COLS !! tablename (cls project_bare) = Some cols
      ∧ KeyError "status" = KeyError c
      ∧ attrs project_bare !! c = None
      ∧ (c ∈ cols
         ∨ (c = "updated_at"
            ∧ ∀ c', c' ∈ cols →
                    is_Some (attrs project_bare !! c')
                    ∧ changed project_bare c' = false)).
Proof.
  assert (Hrun : skip_updated_at REAL_UPDATE_COLS project_bare
                 = Raise (KeyError "status")) by reflexivity.
  split; [exact Hrun|].
  exact (skip_updated_at_raises_only_KeyError _ _ _ Hrun).
Defined.

Lemma run_listeners_cons (fn : hook) (fns : list hook) config t :
  run_listeners (fn :: fns) config t
  = fn config t ≫= λ r, run_listeners fns r.1 r.2.
Proof. reflexivity. Qed.

(** X3.  However many times over the hook is attached to a class, a flush
    that runs all the copies in a row ends as a flush that runs one. *)
Theorem run_listeners_repeated_hook (n : nat) config t :
  run_listeners (replicate (S n) skip_updated_at) config t
  = skip_updated_at config t.
Proof.
  revert config t. induction n as [|n IH]; intros config t.
  - apply run_listeners_single.
  - change (replicate (S (S n)) skip_updated_at)
      with (skip_updated_at :: replicate (S n) skip_updated_at).
    rewrite run_listeners_cons.
    rewrite <- (skip_updated_at_idempotent config t) at 2.
    destruct (skip_updated_at config t) as [r|e]; [|reflexivity].
    cbn [mbind result_bind]. apply IH.
Qed.

End HookBehaviour.

(** * Further properties of an update *)

Section UpdateBehaviour.

Local Open Scope Z_scope.

Implicit Types (t : Instance) (c : string) (cols : list string) (now : Z).
Implicit Types (config : gmap string (list string)).

(** X4.  In the row an update writes, the hook shows in the [updated_at]
    column only: every other column gets what the plain UPDATE gives it. *)
Theorem flush_update_row_frame now config config' t t' :
  flush_update now config t = Ok (config', t') →
  config' = config
  ∧ cls t' = cls t
  ∧ ∀ c, c ≠ "updated_at" →
         attrs t' !! c = attrs (emit_update now t) !! c.
Proof.
  intros Hrun%flush_update_inv. injection Hrun as -> ->. done.
Qed.

Lemma flush_update_row_frame_witness :
  flush_update 200 REAL_UPDATE_COLS project_set_requirements_text
  = Ok (REAL_UPDATE_COLS,
        emit_update 200 (setattr project_set_requirements_text "updated_at"
                                 (VDateTime 100)))
  ∧ ∀ c, c ≠ "updated_at" →
         attrs (emit_update 200 (setattr project_set_requirements_text
                                         "updated_at" (VDateTime 100))) !! c
         = attrs (emit_update 200 project_set_requirements_text) !! c.
Proof.
  assert (Hrun : flush_update 200 REAL_UPDATE_COLS
                              project_set_requirements_text
                 = Ok (REAL_UPDATE_COLS,
                       emit_update 200 (setattr project_set_requirements_text
                                                "updated_at" (VDateTime 100))))
    by (vm_compute; reflexivity).
  split; [exact Hrun|].
  exact (proj2 (proj2 (flush_update_row_frame _ _ _ _ _ Hrun))).
Defined.

(** X5.  A value the caller assigns to [updated_at] that differs from the
    row's reaches the row, with or without a change to a meaningful column:
    where no meaningful column changed the hook assigns [updated_at] that
    same value again, and the flush writes the row it would write without
    the hook. *)
Theorem explicit_updated_at_is_written
    now t (u : AttributeState) (v : value) :
  well_formed t →
  attrs t !! "updated_at" = Some u →
  pending u = Some v →
  v ≠ committed u →
  flush_update now REAL_UPDATE_COLS t
  = Ok (REAL_UPDATE_COLS, emit_update now t)
  ∧ persisted (emit_update now t) "updated_at" = Some v
  ∧ (∀ cols, REAL_UPDATE_COLS !! tablename (cls t) = Some cols →
             (∀ c, c ∈ cols → changed t c = false) →
             skip_updated_at REAL_UPDATE_COLS t
             = Ok (REAL_UPDATE_COLS, setattr t "updated_at" v)).
Proof.
  intros Hwf Hu Hpend Hv.
  assert (Hlv : loaded_value u = v) by (unfold loaded_value; by rewrite Hpend).
  split; [by apply flush_update_well_formed|]. split.
  - rewrite (persisted_net_changed now t "updated_at" u Hu); [by rewrite Hlv|].
    unfold history. rewrite Hpend. by rewrite decide_False.
  - intros cols Hcfg Hnone.
    destruct (configured_lookups t cols Hcfg Hwf) as (Hne & Hall & _ & _).
    rewrite (skip_updated_at_unchanged _ t cols u);
      [by rewrite Hlv|done..|by apply existsb_changed_false|done].
Qed.

Lemma explicit_updated_at_is_written_witness :
  well_formed project_set_updated_at
  ∧ flush_update 200 REAL_UPDATE_COLS project_set_updated_at
    = Ok (REAL_UPDATE_COLS, emit_update 200 project_set_updated_at)
  ∧ persisted project_set_updated_at "updated_at" = Some (VDateTime 100)
  ∧ persisted (emit_update 200 project_set_updated_at) "updated_at"
    = Some (VDateTime 500)
  ∧ skip_updated_at REAL_UPDATE_COLS project_set_updated_at
    = Ok (REAL_UPDATE_COLS,
          setattr project_set_updated_at "updated_at" (VDateTime 500)).
Proof.
  assert (Hwf : well_formed project_set_updated_at)
    by (apply (bool_decide_unpack _); vm_compute; exact I).
  assert (Hv : VDateTime 500 ≠ VDateTime 100) by discriminate.
  destruct (explicit_updated_at_is_written
              200 project_set_updated_at
              (mkAttr (VDateTime 100) (Some (VDateTime 500))) (VDateTime 500)
              Hwf eq_refl eq_refl Hv) as (Hflush & Hrow & Hhook).
  split; [exact Hwf|]. split; [exact Hflush|]. split; [reflexivity|].
  split; [exact Hrow|].
  apply (Hhook project_cols eq_refl).
  apply Forall_forall. apply (bool_decide_unpack _). vm_compute. exact I.
Defined.

(** X6.  [Project] and [File] carry a second auto-timestamp, [date_updated].
    The hook does not part it from [updated_at]: with neither assigned by
    the caller, a flush stamps both with the clock reading when some column
    has a net change, and leaves both as they were when none has. *)
Theorem date_updated_and_updated_at_move_together
    now t (a u : AttributeState) :
  cls t = Project ∨ cls t = File →
  well_formed t →
  attrs t !! "date_updated" = Some a →
  pending a = None →
  attrs t !! "updated_at" = Some u →
  pending u = None →
  ∃ t', flush_update now REAL_UPDATE_COLS t = Ok (REAL_UPDATE_COLS, t')
    ∧ persisted t' "date_updated"
      = Some (if net_change t then VDateTime now else committed a)
    ∧ persisted t' "updated_at"
      = Some (if net_change t then VDateTime now else committed u).
Proof.
  intros Hcls Hwf Ha Hpa Hu Hpu.
  assert (Hon : "date_updated" ∈ onupdate_columns (cls t)
                ∧ "updated_at" ∈ onupdate_columns (cls t))
    by (destruct Hcls as [->| ->];
        split; by apply (bool_decide_unpack _); vm_compute).
  destruct Hon as [Hon1 Hon2].
  exists (emit_update now t).
  split; [by apply flush_update_well_formed|].
  destruct (net_change t) eqn:Hnet.
  - split.
    + apply (persisted_onupdate now t "date_updated" a); [done| |done..].
      by apply has_changes_unassigned.
    + apply (persisted_onupdate now t "updated_at" u); [done| |done..].
      by apply has_changes_unassigned.
  - rewrite !persisted_no_net_change by done. unfold persisted.
    by rewrite Ha, Hu.
Qed.

Lemma date_updated_and_updated_at_move_together_witness :
  (cls project_set_requirements_text = Project
   ∨ cls project_set_requirements_text = File)
  ∧ well_formed project_set_requirements_text
  ∧ net_change project_set_requirements_text = true
  ∧ ∃ t', flush_update 200 REAL_UPDATE_COLS project_set_requirements_text
          = Ok (REAL_UPDATE_COLS, t')
          ∧ persisted t' "date_updated" = Some (VDateTime 200)
          ∧ persisted t' "updated_at" = Some (VDateTime 200).
Proof.
  assert (Hcls : cls project_set_requirements_text = Project
                 ∨ cls project_set_requirements_text = File)
    by (left; reflexivity).
  assert (Hwf : well_formed project_set_requirements_text)
    by (apply (bool_decide_unpack _); vm_compute; exact I).
  assert (Hnet : net_change project_set_requirements_text = true)
    by (vm_compute; reflexivity).
  split; [exact Hcls|]. split; [exact Hwf|]. split; [exact Hnet|].
  destruct (date_updated_and_updated_at_move_together
              200 project_set_requirements_text
              (mkAttr (VStr "date_updated") None)
              (mkAttr (VDateTime 100) None)
              Hcls Hwf eq_refl eq_refl eq_refl eq_refl)
    as (t' & Hflush & Hdate & Hup).
  exists t'. split; [exact Hflush|].
  rewrite Hnet in Hdate, Hup. split; [exact Hdate | exact Hup].
Defined.

End UpdateBehaviour.

(** * Properties of the declarations *)

Section DeclaredSchema.

Lemma all_models_complete (m : Model) : m ∈ all_models.
Proof. destruct m; by apply (bool_decide_unpack _); vm_compute. Qed.

Lemma model_of_table_Some (name : string) (m : Model) :
  model_of_table name = Some m → tablename m = name.
Proof.
  unfold model_of_table.
  destruct (list_find (λ m, tablename m = name) all_models)
    as [[i m']|] eqn:Hfind; [|discriminate].
  cbn. intros [= <-]. by apply list_find_Some in Hfind as (_ & Hname & _).
Qed.

Lemma resolves_spec (fk : ForeignKey) :
  resolves fk = true →
  ∃ m', tablename m' = fk_table fk ∧ primary_key m' = [fk_target fk].
Proof.
  unfold resolves.
  destruct (model_of_table (fk_table fk)) as [m'|] eqn:Hm; [|discriminate].
  intros Hpk%bool_decide_eq_true_1. exists m'.
  split; [by apply model_of_table_Some | done].
Qed.

Lemma set_null_allowed_spec (fk : ForeignKey) :
  set_null_allowed fk = true →
  fk_ondelete fk = Some SET_NULL → fk_nullable fk = true.
Proof. unfold set_null_allowed. intros H Heq. by rewrite Heq in H. Qed.

(** X9.  The keys of the schema hold together.  A table name belongs to one
    class, and looking a class up by its table name finds it; the primary
    key, the foreign-key columns and the columns named by constraints and
    indexes are declared columns of their class; every foreign key, of a
    class or of an association table, points at the whole primary key of a
    table of the package; and [ondelete="SET NULL"] only sits on nullable
    columns. *)
Theorem schema_keys_resolve :
  (∀ m m', tablename m = tablename m' → m = m')
  ∧ (∀ m, model_of_table (tablename m) = Some m)
  ∧ (∀ m c, c ∈ (primary_key m ++ table_args_columns m)%list →
            c ∈ declared_columns m)
  ∧ (∀ m fk, fk ∈ foreign_keys m →
             fk_column fk ∈ declared_columns m
             ∧ (∃ m', tablename m' = fk_table fk
                      ∧ primary_key m' = [fk_target fk])
             ∧ (fk_ondelete fk = Some SET_NULL → fk_nullable fk = true))
  ∧ (∀ a fk, fk ∈ association_keys a →
             ∃ m', tablename m' = fk_table fk
                   ∧ primary_key m' = [fk_target fk]).
Proof.
  split; [|split; [|split; [|split]]].
  - intros m m' H. destruct m, m'; first [reflexivity | discriminate H].
  - intros m. destruct m; reflexivity.
  - intros m c Hc.
    assert (Hall : Forall (λ c, c ∈ declared_columns m)
                          (primary_key m ++ table_args_columns m)%list)
      by (destruct m; by apply (bool_decide_unpack _); vm_compute).
    rewrite Forall_forall in Hall. by apply Hall.
  - intros m fk Hfk.
    assert (Hall : forallb (λ fk, bool_decide (fk_column fk ∈ declared_columns m)
                                  && resolves fk && set_null_allowed fk)
                           (foreign_keys m) = true)
      by (destruct m; reflexivity).
    rewrite forallb_forall in Hall.
    apply list_elem_of_In, Hall in Hfk.
    apply andb_true_iff in Hfk as [Hfk Hnull].
    apply andb_true_iff in Hfk as [Hcol Hres].
    split; [by apply bool_decide_eq_true_1 in Hcol|].
    split; [by apply resolves_spec | by apply set_null_allowed_spec].
  - intros a fk Hfk.
    assert (Hall : forallb resolves (association_keys a) = true)
      by (destruct a; reflexivity).
    rewrite forallb_forall in Hall.
    by apply resolves_spec, Hall, list_elem_of_In.
Qed.

Lemma reciprocated_spec (m : Model) (r : Relationship) (name : string) :
  reciprocated m r = true →
  back_populates r = Some name →
  ∃ r', r' ∈ relationships (rel_target r)
        ∧ rel_name r' = name ∧ rel_target r' = m.
Proof.
  unfold reciprocated. intros H Hbp. rewrite Hbp in H.
  apply existsb_exists in H as (r' & Hin & Hr').
  apply bool_decide_eq_true_1 in Hr' as [Hname Htarget].
  exists r'. split; [by apply list_elem_of_In | done].
Qed.

Lemma not_one_sided_reciprocated (m : Model) (r : Relationship) :
  r ∈ relationships m →
  (m, rel_name r) ∉ one_sided →
  reciprocated m r = true.
Proof.
  intros Hr Hout. destruct (reciprocated m r) eqn:Hrec; [done|].
  destruct Hout. unfold one_sided. apply list_elem_of_bind.
  exists m. split; [|apply all_models_complete].
  apply list_elem_of_fmap. exists r. split; [done|].
  by apply list_elem_of_filter.
Qed.

(** X10.  Of the relationships that name a [back_populates], all but five
    find, on the class they target, a relationship of that name that points
    back at them; the five that do not are listed.  No relationship shares
    its name with a column of its class, so no name in [REAL_UPDATE_COLS] is
    a relationship of the class it is configured for. *)
Theorem relationships_reciprocated_but_five :
  one_sided
  = [(Organization, "users"); (Role, "users"); (AnnotationJob, "project");
     (EventLog, "job"); (EventLog, "export")]
  ∧ (∀ m r name,
       r ∈ relationships m →
       (m, rel_name r) ∉ one_sided →
       back_populates r = Some name →
       ∃ r', r' ∈ relationships (rel_target r)
             ∧ rel_name r' = name ∧ rel_target r' = m)
  ∧ (∀ m r, r ∈ relationships m → rel_name r ∉ columns m)
  ∧ (∀ m r cols, r ∈ relationships m →
                 REAL_UPDATE_COLS !! tablename m = Some cols →
                 rel_name r ∉ cols).
Proof.
  assert (Hdisjoint : ∀ m r, r ∈ relationships m → rel_name r ∉ columns m).
  { intros m r Hr.
    assert (Hall : Forall (λ r, rel_name r ∉ columns m) (relationships m))
      by (destruct m; by apply (bool_decide_unpack _); vm_compute).
    rewrite Forall_forall in Hall. by apply Hall. }
  split; [reflexivity|]. split; [|split; [exact Hdisjoint|]].
  - intros m r name Hr Hout Hbp.
    apply (reciprocated_spec m r name); [|done].
    by apply not_one_sided_reciprocated.
  - intros m r cols Hr Hcfg Hin. apply (Hdisjoint m r Hr).
    pose proof (configured_columns m cols Hcfg) as Hcols.
    rewrite Forall_forall in Hcols. by apply Hcols.
Qed.

End DeclaredSchema.
